(** * skmultilearn.base: the multi-label classifier base class

    A shallow embedding of [skmultilearn/base.py]: the abstract
    [MLClassifierBase] with its label-matrix helpers and its parameter
    introspection, and the degenerate [RepeatClassifier].

    Python objects are mutable, so a method is a computation over the
    receiver's [__dict__] that either returns a value or raises.  scipy's
    sparse matrices and numpy's arrays are collaborators of the module, not
    part of it: they are modelled by value, by their shape and logical
    content. *)

From stdpp Require Import gmap strings list fin_maps.

Set Warnings "-register-all".
Local Open Scope Z_scope.
Local Open Scope string_scope.

(** ** Exceptions and results *)

(** The exception classes that the module can raise, with the piece of the
    message that identifies the failing name. *)
Inductive exn : Type :=
  | NotImplementedError (msg : string)
  | AttributeError (attr : string)
  | NameError (name : string)
  | TypeError (msg : string)
  | IndexError.

Inductive result (A : Type) : Type :=
  | Ok (a : A)
  | Raise (e : exn).
Arguments Ok {A} a.
Arguments Raise {A} e.

Definition rbind {A B : Type} (r : result A) (k : A -> result B) : result B :=
  match r with
  | Ok a => k a
  | Raise e => Raise e
  end.

(** [[f(x) for x in l]], stopping at the first element that raises. *)
Fixpoint rmap {A B : Type} (f : A -> result B) (l : list A) : result (list B) :=
  match l with
  | [] => Ok []
  | x :: l' => rbind (f x) (fun y => rbind (rmap f l') (fun ys => Ok (y :: ys)))
  end.

(** ** Sparse label matrices *)

Inductive sparse_format : Type := CSR | CSC | COO | LIL | DOK.

(** A scipy sparse matrix: its storage format, its column count (kept apart
    from the rows, since a matrix may have no row) and its content row by
    row.  The row count is the number of rows. *)
Record spmatrix : Type := SpMatrix {
  fmt : sparse_format;
  n_cols : nat;
  rows : list (list Z)
}.

Definition n_rows (m : spmatrix) : nat := length (rows m).

(** Every row has [n_cols] entries. *)
Definition well_shaped (m : spmatrix) : Prop :=
  Forall (fun r => length r = n_cols m) (rows m).

Definition row (m : spmatrix) (i : nat) : list Z := nth i (rows m) [].
Definition entry (m : spmatrix) (i j : nat) : Z := nth j (row m i) 0.
Definition column (m : spmatrix) (j : nat) : list Z :=
  map (fun r => nth j r 0) (rows m).

(** [m.tocsr()] and [m.tocsc()] change the storage format only. *)
Definition tocsr (m : spmatrix) : spmatrix :=
  {| fmt := CSR; n_cols := n_cols m; rows := rows m |}.
Definition tocsc (m : spmatrix) : spmatrix :=
  {| fmt := CSC; n_cols := n_cols m; rows := rows m |}.

(** [m.todense()]: a numpy matrix, iterated row by row; each row is itself
    a matrix with one row. *)
Definition todense (m : spmatrix) : list (list Z) := rows m.

(** [t[0,0]] on a one-row dense matrix [t]. *)
Definition getitem_0_0 (t : list Z) : result Z :=
  match t with
  | x :: _ => Ok x
  | [] => Raise IndexError
  end.

(** An integer index into an axis of length [n]: negative indices count from
    the end, anything outside [-n, n) raises [IndexError]. *)
Definition check_index (n : nat) (i : Z) : result nat :=
  if bool_decide (0 <= i < Z.of_nat n) then Ok (Z.to_nat i)
  else if bool_decide (- Z.of_nat n <= i < 0) then Ok (Z.to_nat (i + Z.of_nat n))
  else Raise IndexError.

(** [m[subset, :]]: the rows of [m] listed by [subset], in that order. *)
Definition getitem_rows (m : spmatrix) (subset : list Z) : result spmatrix :=
  rbind (rmap (check_index (n_rows m)) subset) (fun idx =>
  Ok {| fmt := fmt m; n_cols := n_cols m;
        rows := map (fun i => row m i) idx |}).

(** [m[:, subset]]: the columns of [m] listed by [subset], in that order. *)
Definition getitem_cols (m : spmatrix) (subset : list Z) : result spmatrix :=
  rbind (rmap (check_index (n_cols m)) subset) (fun idx =>
  Ok {| fmt := fmt m; n_cols := length idx;
        rows := map (fun r => map (fun j => nth j r 0) idx) (rows m) |}).

(** ** Python values *)

(** The values that flow through the module.  An inner estimator is known
    by the parameters its own [get_params()] reports, if it has that method
    at all.  [VBoundMethod m name] is [m.name] taken without calling it;
    [VGlobal name] is an object bound at module level. *)
Inductive value : Type :=
  | VNone
  | VBool (b : bool)
  | VInt (z : Z)
  | VStr (s : string)
  | VEstimator (params : option (list (string * value)))
  | VSparse (m : spmatrix)
  | VArray (items : list value)
  | VBoundMethod (m : spmatrix) (name : string)
  | VGlobal (name : string).

(** The feature matrix [X]: array-like or sparse. *)
Inductive features : Type :=
  | XDense (samples : list (list Z))
  | XSparse (m : spmatrix).

(** [len(X)]; scipy's sparse matrices refuse [len]. *)
Definition py_len (X : features) : result nat :=
  match X with
  | XDense samples => Ok (length samples)
  | XSparse _ => Raise (TypeError "sparse matrix length is ambiguous")
  end.

(** The module-level objects that are classes of this module: both have
    every method of [MLClassifierBase] as a class attribute. *)
Definition is_module_class (name : string) : bool :=
  String.eqb name "MLClassifierBase" || String.eqb name "RepeatClassifier".

(** [hasattr(v, 'get_params')]: true of an estimator that has the method
    and of the two classes of the module, when one is passed as it is. *)
Definition has_get_params (v : value) : bool :=
  match v with
  | VEstimator (Some _) => true
  | VGlobal name => is_module_class name
  | _ => false
  end.

(** [v.get_params().items()]; on a class the method is unbound and the call
    lacks its instance. *)
Definition get_params_items (v : value) : result (list (string * value)) :=
  match v with
  | VEstimator (Some ps) => Ok ps
  | VGlobal name =>
      if is_module_class name
      then Raise (TypeError "unbound method get_params() must be called with an instance")
      else Raise (AttributeError "get_params")
  | _ => Raise (AttributeError "get_params")
  end.

(** [v + s] for a string literal or string variable [s]. *)
Definition str_add (v : value) (s : string) : result string :=
  match v with
  | VStr a => Ok (a ++ s)
  | _ => Raise (TypeError "unsupported operand type(s) for +")
  end.

(** [v[0,:]] *)
Definition getitem_row0 (v : value) : result value :=
  match v with
  | VSparse m => rbind (getitem_rows m [0]) (fun r => Ok (VSparse r))
  | _ => Raise (TypeError "object has no attribute '__getitem__'")
  end.

(** [v(args)]: of the values above only a bound method can be called, and
    the two conversions take no argument. *)
Definition py_call (v : value) (args : list value) : result value :=
  match v with
  | VBoundMethod m name =>
      match args with
      | [] =>
          if String.eqb name "tocsr" then Ok (VSparse (tocsr m))
          else if String.eqb name "tocsc" then Ok (VSparse (tocsc m))
          else Raise (AttributeError name)
      | _ :: _ => Raise (TypeError "takes exactly 1 argument")
      end
  | _ => Raise (TypeError "object is not callable")
  end.

(** [copy.copy(v)], [np.copy(v)] and [np.array(l)].  Values carry no
    identity here, so a copy is the value itself; which outputs share
    storage is not represented. *)
Definition copy_copy (v : value) : value := v.
Definition np_copy (v : value) : value := v.
Definition np_array (l : list value) : value := VArray l.

(** [np.full(shape, fill_value)] has two required arguments; the module
    calls it with one. *)
Definition np_full_1 (shape : value) : result value :=
  Raise (TypeError "full() takes at least 2 arguments (1 given)").

(** The names bound at module level in [base.py]: its imports and its two
    classes. *)
Definition module_globals : list string :=
  ["copy"; "np"; "get_matrix_in_format"; "issparse"; "csr_matrix";
   "MLClassifierBase"; "RepeatClassifier"].

(** Reading a name that the function body never assigns: it is looked up at
    module level (no builtin is called [value] or [key]). *)
Definition load_global (name : string) : result value :=
  if bool_decide (name ∈ module_globals) then Ok (VGlobal name)
  else Raise (NameError name).

(** ** Objects and methods *)

(** An instance is its [__dict__].  Neither class declares a class-level
    attribute other than its methods, and no method name is ever read as
    data, so reading [self.name] succeeds exactly when the dictionary has
    [name]. *)
Record instance : Type := Instance { attrs : gmap string value }.

(** What a method returns when its body ends in [return self]. *)
Inductive self_ref : Type := Self.

(** A method body: from the receiver's state to an outcome and the
    receiver's state afterwards. *)
Definition M (A : Type) : Type := instance -> result A * instance.

Definition ret {A : Type} (a : A) : M A := fun self => (Ok a, self).
Definition raise {A : Type} (e : exn) : M A := fun self => (Raise e, self).
Definition bind {A B : Type} (c : M A) (k : A -> M B) : M B :=
  fun self =>
    match c self with
    | (Ok a, self') => k a self'
    | (Raise e, self') => (Raise e, self')
    end.
Definition lift {A : Type} (r : result A) : M A := fun self => (r, self).

Declare Scope py_scope.
Delimit Scope py_scope with py.
Notation "x <- c ;; k" := (bind c (fun x => k))
  (at level 100, c at next level, right associativity) : py_scope.
Notation "c ;;; k" := (bind c (fun _ => k))
  (at level 100, right associativity) : py_scope.
Local Open Scope py_scope.

(** [self.name] *)
Definition getattr (name : string) : M value :=
  fun self =>
    match attrs self !! name with
    | Some v => (Ok v, self)
    | None => (Raise (AttributeError name), self)
    end.

(** [self.name = v] *)
Definition setattr (name : string) (v : value) : M unit :=
  fun self => (Ok tt, {| attrs := <[name := v]> (attrs self) |}).

(** [for x in l: body(x)] *)
Fixpoint for_each {A : Type} (l : list A) (body : A -> M unit) : M unit :=
  match l with
  | [] => ret tt
  | x :: l' => body x ;;; for_each l' body
  end.

(** [[body for _ in l]] *)
Fixpoint comprehension {A B : Type} (l : list A) (body : A -> M B) : M (list B) :=
  match l with
  | [] => ret []
  | x :: l' => y <- body x ;; ys <- comprehension l' body ;; ret (y :: ys)
  end.

Module MLClassifierBase.

(** [__init__(self, classifier = None, require_dense = False)] *)
Definition __init__ (classifier require_dense : value) : instance :=
  {| attrs := <["require_dense" := require_dense]>
                (<["classifier" := classifier]> ∅) |}.

(** [generate_data_subset(self, y, subset, axis)]; [axis] is documented
    as an integer. *)
Definition generate_data_subset (y : spmatrix) (subset : list Z) (axis : Z)
  : result value :=
  let return_data := Ok VNone in
  if bool_decide (axis = 1) then
    rbind (getitem_cols (tocsc y) subset) (fun m => Ok (VSparse m))
  else if bool_decide (axis = 0) then
    rbind (getitem_rows (tocsr y) subset) (fun m => Ok (VSparse m))
  else return_data.

(** [ensure_1d(self, y)] *)
Definition ensure_1d (y : spmatrix) : result (list Z) :=
  rmap getitem_0_0 (todense y).

(** [fit(self, X, y)] *)
Definition fit (X : features) (y : spmatrix) : M self_ref :=
  raise (NotImplementedError "MLClassifierBase::fit()").

(** [predict(self, X)] *)
Definition predict (X : features) : M value :=
  raise (NotImplementedError "MLClassifierBase::predict()").

(** [out.update((key + '__' + k, val) for k, val in deep_items)]: [key] is
    read at each item, being a name the body never assigns. *)
Fixpoint update_deep (out : gmap string value)
    (deep_items : list (string * value)) : result (gmap string value) :=
  match deep_items with
  | [] => Ok out
  | (k, val) :: rest =>
      rbind (load_global "key") (fun key =>
      rbind (str_add key "__") (fun prefix =>
      update_deep (<[prefix ++ k := val]> out) rest))
  end.

(** [get_params(self, deep=True)] *)
Definition get_params (deep : bool) : M (gmap string value) :=
  let out : gmap string value := ∅ in
  classifier <- getattr "classifier" ;;
  let out := <["classifier" := classifier]> out in
  require_dense <- getattr "require_dense" ;;
  let out := <["require_dense" := require_dense]> out in
  if deep then
    classifier <- getattr "classifier" ;;
    if has_get_params classifier then
      value <- lift (load_global "value") ;;
      deep_items <- lift (get_params_items value) ;;
      lift (update_deep out deep_items)
    else ret out
  else ret out.

(** [set_params(self, **parameters)] *)
Definition set_params (parameters : gmap string value) : M self_ref :=
  if bool_decide (parameters = ∅) then ret Self
  else
    for_each (map_to_list parameters) (fun '(parameter, value) =>
      f <- getattr "setattr" ;;
      lift (py_call f [VStr parameter; value]) ;;;
      ret tt) ;;;
    ret Self.

End MLClassifierBase.

Module RepeatClassifier.

(** [__init__(self, value_to_repeat = None)]: only the base constructor
    runs, with its defaults. *)
Definition __init__ (value_to_repeat : value) : instance :=
  MLClassifierBase.__init__ VNone (VBool false).

(** [fit(self, X, y)]: [y.tocsr] is read, not called, and indexed. *)
Definition fit (X : features) (y : spmatrix) : M self_ref :=
  row0 <- lift (getitem_row0 (VBoundMethod y "tocsr")) ;;
  setattr "value_to_repeat" (copy_copy row0) ;;;
  return_value <- lift (np_full_1 (VSparse y)) ;;
  setattr "return_value" return_value ;;;
  ret Self.

(** [predict(self, X)]; [xrange] is the Python 2 builtin. *)
Definition predict (X : features) : M value :=
  n <- lift (py_len X) ;;
  copies <- comprehension (seq 0 n) (fun x =>
              v <- getattr "value_to_repeat" ;; ret (np_copy v)) ;;
  ret (np_array copies).

End RepeatClassifier.

(** ** Sequences of calls on one instance *)

(** A call of one of the state-touching methods of [RepeatClassifier]
    (the last two are inherited). *)
Inductive call : Type :=
  | CallFit (X : features) (y : spmatrix)
  | CallPredict (X : features)
  | CallGetParams (deep : bool)
  | CallSetParams (parameters : gmap string value).

(** The receiver after the call, whether it returned or raised. *)
Definition run_call (self : instance) (c : call) : instance :=
  match c with
  | CallFit X y => snd (RepeatClassifier.fit X y self)
  | CallPredict X => snd (RepeatClassifier.predict X self)
  | CallGetParams deep => snd (MLClassifierBase.get_params deep self)
  | CallSetParams parameters => snd (MLClassifierBase.set_params parameters self)
  end.

Definition run_calls (self : instance) (cs : list call) : instance :=
  fold_left run_call cs self.

(** ** Objects with identity *)

(** The methods above pass values around.  Whether two rows returned by
    [predict] are one object or two is a question about references, so
    [predict] is given a second reading over a store of numpy and scipy
    objects, each at its own address. *)
Module Store.

Inductive obj : Type :=
  | OSparse (m : spmatrix)      (* a scipy sparse matrix *)
  | ONdarray (data : list Z)    (* a one-dimensional numeric array *)
  | OObject0 (ref : nat).       (* a zero-dimensional object array: it holds
                                   one reference *)

(** A new object at an address not in use. *)
Definition alloc (h : gmap nat obj) (o : obj) : nat * gmap nat obj :=
  let l := fresh (dom h) in (l, <[l := o]> h).

(** [np.copy(a)] is [np.array(a, copy=True)].  A numeric array is
    duplicated.  A scipy sparse matrix is not an array-like (it has no
    [__array__] and refuses [len]): numpy takes it as one opaque element and
    returns a new zero-dimensional object array that refers to the very same
    matrix.  Copying an object array copies its reference. *)
Definition np_copy (h : gmap nat obj) (r : nat) : nat * gmap nat obj :=
  match h !! r with
  | Some (ONdarray data) => alloc h (ONdarray data)
  | Some (OObject0 r') => alloc h (OObject0 r')
  | _ => alloc h (OObject0 r)
  end.

(** [[np.copy(self.value_to_repeat) for x in xrange(n)]]: the attribute is
    read at each round. *)
Fixpoint copies (h : gmap nat obj) (value_to_repeat : option nat) (n : nat)
  : result (list nat * gmap nat obj) :=
  match n with
  | O => Ok ([], h)
  | S n' =>
      match value_to_repeat with
      | None => Raise (AttributeError "value_to_repeat")
      | Some r =>
          let '(l, h1) := np_copy h r in
          rbind (copies h1 value_to_repeat n') (fun '(ls, h2) =>
          Ok (l :: ls, h2))
      end
  end.

(** [np.array(items)], on the lists that [predict] builds: every element is
    a copy of one object, so all are of one kind and one length.  The
    result is given by its rows, [out[0]], [out[1]], ...: numeric arrays
    are copied into the buffer of the new array, where each row has its own
    cells; from zero-dimensional object arrays the new array takes the
    references they hold. *)
Fixpoint np_array (h : gmap nat obj) (items : list nat)
  : list nat * gmap nat obj :=
  match items with
  | [] => ([], h)
  | r :: rest =>
      match h !! r with
      | Some (ONdarray data) =>
          let '(l, h1) := alloc h (ONdarray data) in
          let '(ls, h2) := np_array h1 rest in
          (l :: ls, h2)
      | Some (OObject0 r') =>
          let '(ls, h2) := np_array h rest in
          (r' :: ls, h2)
      | _ =>
          let '(ls, h2) := np_array h rest in
          (r :: ls, h2)
      end
  end.

(** [RepeatClassifier.predict(self, X)], where all that is read of [self]
    is the reference under [value_to_repeat], if there is one. *)
Definition predict (h : gmap nat obj) (value_to_repeat : option nat)
    (X : features) : result (list nat * gmap nat obj) :=
  rbind (py_len X) (fun n =>
  rbind (copies h value_to_repeat n) (fun '(cs, h1) =>
  Ok (np_array h1 cs))).

(** Reading row [j] of a returned sequence, and writing in place through
    row [i] of it. *)
Definition read_row (h : gmap nat obj) (out : list nat) (j : nat)
  : option obj :=
  match out !! j with
  | Some l => h !! l
  | None => None
  end.

Definition write_row (h : gmap nat obj) (out : list nat) (i : nat) (o : obj)
  : gmap nat obj :=
  match out !! i with
  | Some l => <[l := o]> h
  | None => h
  end.

End Store.

(** * Properties *)

(** ** Results and index checks *)

Lemma rmap_ok {A B : Type} (f : A -> result B) (g : A -> B) (l : list A) :
  Forall (fun x => f x = Ok (g x)) l -> rmap f l = Ok (map g l).
Proof.
  induction 1 as [|x l Hx _ IH]; simpl; [reflexivity|].
  rewrite Hx, IH. reflexivity.
Qed.

Lemma check_index_in_range (n : nat) (i : Z) :
  0 <= i < Z.of_nat n -> check_index n i = Ok (Z.to_nat i).
Proof.
  intros Hi. unfold check_index.
  rewrite bool_decide_eq_true_2 by exact Hi. reflexivity.
Qed.

Lemma rmap_check_index (n : nat) (subset : list Z) :
  Forall (fun i => 0 <= i < Z.of_nat n) subset ->
  rmap (check_index n) subset = Ok (map Z.to_nat subset).
Proof.
  intros H. apply rmap_ok.
  eapply Forall_impl; [exact H|]. intros i Hi. by apply check_index_in_range.
Qed.

Lemma getitem_rows_in_range (m : spmatrix) (subset : list Z) :
  Forall (fun i => 0 <= i < Z.of_nat (n_rows m)) subset ->
  getitem_rows m subset =
    Ok {| fmt := fmt m; n_cols := n_cols m;
          rows := map (fun i => row m (Z.to_nat i)) subset |}.
Proof.
  intros H. unfold getitem_rows. rewrite rmap_check_index by exact H.
  simpl. by rewrite map_map.
Qed.

Lemma getitem_cols_in_range (m : spmatrix) (subset : list Z) :
  Forall (fun j => 0 <= j < Z.of_nat (n_cols m)) subset ->
  getitem_cols m subset =
    Ok {| fmt := fmt m; n_cols := length subset;
          rows := map (fun r => map (fun j => nth (Z.to_nat j) r 0) subset)
                      (rows m) |}.
Proof.
  intros H. unfold getitem_cols. rewrite rmap_check_index by exact H.
  simpl. rewrite length_map. do 2 f_equal.
  apply map_ext. intros r. by rewrite map_map.
Qed.

(** ** Method bodies and the receiver's state *)

Lemma load_global_value : load_global "value" = Raise (NameError "value").
Proof. reflexivity. Qed.

Lemma py_call_with_args (f a : value) (args : list value) :
  exists e, py_call f (a :: args) = Raise e.
Proof. destruct f; simpl; eauto. Qed.

Lemma init_no_setattr (c r : value) :
  attrs (MLClassifierBase.__init__ c r) !! "setattr" = None.
Proof. reflexivity. Qed.

Lemma init_untrained (c r : value) :
  attrs (MLClassifierBase.__init__ c r) !! "value_to_repeat" = None.
Proof. reflexivity. Qed.

(** The first statement of [RepeatClassifier.fit] raises, whatever the
    receiver and the arguments: nothing is stored. *)
Lemma fit_raises (X : features) (y : spmatrix) (self : instance) :
  RepeatClassifier.fit X y self =
    (Raise (TypeError "object has no attribute '__getitem__'"), self).
Proof. reflexivity. Qed.

Lemma comprehension_untrained (self : instance) (x : nat) (l : list nat) :
  attrs self !! "value_to_repeat" = None ->
  comprehension (x :: l)
      (fun _ => bind (getattr "value_to_repeat") (fun v => ret (np_copy v)))
      self =
    (Raise (AttributeError "value_to_repeat"), self).
Proof.
  intros Hnone. simpl. unfold bind at 1.
  unfold bind at 1, getattr. rewrite Hnone. reflexivity.
Qed.

Lemma comprehension_trained (self : instance) (v : value) (l : list nat) :
  attrs self !! "value_to_repeat" = Some v ->
  comprehension l
      (fun _ => bind (getattr "value_to_repeat") (fun v => ret (np_copy v)))
      self =
    (Ok (map (fun _ => v) l), self).
Proof.
  intros Hsome. induction l as [|x l IH]; [reflexivity|].
  cbn [comprehension map]. unfold bind at 1.
  unfold bind at 1, getattr at 1. rewrite Hsome.
  unfold ret at 1. unfold bind at 1. rewrite IH. reflexivity.
Qed.

(** What [predict] does on an instance that has no stored row. *)
Lemma predict_untrained (X : features) (self : instance) :
  attrs self !! "value_to_repeat" = None ->
  RepeatClassifier.predict X self =
    (match X with
     | XDense [] => Ok (VArray [])
     | XDense (_ :: _) => Raise (AttributeError "value_to_repeat")
     | XSparse _ => Raise (TypeError "sparse matrix length is ambiguous")
     end, self).
Proof.
  intros Hnone. destruct X as [[|x xs]|m]; try reflexivity.
  unfold RepeatClassifier.predict, bind at 1, lift. simpl py_len. cbv iota beta.
  unfold bind at 1. simpl seq.
  rewrite comprehension_untrained by exact Hnone. reflexivity.
Qed.

(** What [predict] would do on an instance that had a stored row. *)
Lemma predict_trained (samples : list (list Z)) (v : value) (self : instance) :
  attrs self !! "value_to_repeat" = Some v ->
  RepeatClassifier.predict (XDense samples) self =
    (Ok (VArray (map (fun _ => v) (seq 0 (length samples)))), self).
Proof.
  intros Hsome.
  unfold RepeatClassifier.predict, bind at 1, lift. simpl py_len. cbv iota beta.
  unfold bind at 1.
  rewrite (comprehension_trained self v) by exact Hsome. reflexivity.
Qed.

Lemma predict_state (X : features) (self : instance) :
  snd (RepeatClassifier.predict X self) = self.
Proof.
  destruct (attrs self !! "value_to_repeat") as [v|] eqn:Hv.
  - destruct X as [samples|m]; [|reflexivity].
    by rewrite (predict_trained samples v).
  - by rewrite predict_untrained.
Qed.

Lemma get_params_state (deep : bool) (self : instance) :
  snd (MLClassifierBase.get_params deep self) = self.
Proof.
  unfold MLClassifierBase.get_params, bind, getattr, lift, ret.
  destruct (attrs self !! "classifier") as [c|] eqn:Hc; [|reflexivity].
  destruct (attrs self !! "require_dense") as [r|]; [|reflexivity].
  destruct deep; [|reflexivity].
  rewrite Hc. destruct (has_get_params c); reflexivity.
Qed.

(** A call of [set_params] with at least one parameter raises at the first
    one and stores nothing. *)
Lemma set_params_nonempty (parameters : gmap string value) (self : instance) :
  parameters <> ∅ ->
  exists e, MLClassifierBase.set_params parameters self = (Raise e, self).
Proof.
  intros Hne. unfold MLClassifierBase.set_params.
  rewrite bool_decide_eq_false_2 by exact Hne.
  destruct (map_to_list parameters) as [|[k v] l] eqn:Hl.
  { by apply map_to_list_empty_iff in Hl. }
  simpl. unfold bind, getattr, lift.
  destruct (attrs self !! "setattr") as [f|]; [|eauto].
  destruct (py_call_with_args f (VStr k) [v]) as [e ->]. eauto.
Qed.

Lemma set_params_no_setattr (parameters : gmap string value) (self : instance) :
  parameters <> ∅ ->
  attrs self !! "setattr" = None ->
  MLClassifierBase.set_params parameters self =
    (Raise (AttributeError "setattr"), self).
Proof.
  intros Hne Hnone. unfold MLClassifierBase.set_params.
  rewrite bool_decide_eq_false_2 by exact Hne.
  destruct (map_to_list parameters) as [|[k v] l] eqn:Hl.
  { by apply map_to_list_empty_iff in Hl. }
  simpl. unfold bind, getattr, lift. by rewrite Hnone.
Qed.

Lemma set_params_empty (self : instance) :
  MLClassifierBase.set_params ∅ self = (Ok Self, self).
Proof. reflexivity. Qed.

Lemma set_params_state (parameters : gmap string value) (self : instance) :
  snd (MLClassifierBase.set_params parameters self) = self.
Proof.
  destruct (decide (parameters = ∅)) as [->|Hne]; [reflexivity|].
  by destruct (set_params_nonempty parameters self Hne) as [e ->].
Qed.

(** No method of the class ever writes the receiver's dictionary. *)
Lemma run_call_state (self : instance) (c : call) : run_call self c = self.
Proof.
  destruct c; unfold run_call.
  - by rewrite fit_raises.
  - apply predict_state.
  - apply get_params_state.
  - apply set_params_state.
Qed.

Lemma run_calls_state (self : instance) (cs : list call) :
  run_calls self cs = self.
Proof.
  unfold run_calls. revert self.
  induction cs as [|c cs IH]; intros self; simpl; [reflexivity|].
  by rewrite run_call_state.
Qed.

(** ** Lists of rows *)

Lemma nth_map_lookup {A B : Type} (f : A -> B) (l : list A) (k : nat) (x : A)
    (d : B) :
  l !! k = Some x -> nth k (map f l) d = f x.
Proof.
  revert k. induction l as [|a l IH]; intros [|k] Hk; simpl in *; try done.
  - by inversion Hk.
  - by apply IH.
Qed.

Lemma row_length (y : spmatrix) (i : nat) :
  well_shaped y -> (i < n_rows y)%nat -> length (row y i) = n_cols y.
Proof.
  unfold well_shaped, n_rows, row. intros Hy Hi.
  rewrite Forall_forall in Hy. apply Hy.
  apply list_elem_of_In, nth_In, Hi.
Qed.

Lemma single_entry_row (r : list Z) : length r = 1%nat -> r = [nth 0 r 0].
Proof. destruct r as [|x [|? ?]]; simpl; intros H; try done. Qed.

(** ** The label-matrix helpers *)

(** C3. With [axis = 0], [generate_data_subset] returns a sparse (CSR)
    matrix whose rows are the rows of [y] at the given indices, in the
    given order; with [axis = 1] it returns a sparse (CSC) matrix whose
    columns are the columns of [y] at the given indices, in the given
    order. *)
Theorem generate_data_subset_rows_and_columns
    (y : spmatrix) (row_subset col_subset : list Z) :
  well_shaped y ->
  Forall (fun i => 0 <= i < Z.of_nat (n_rows y)) row_subset ->
  Forall (fun j => 0 <= j < Z.of_nat (n_cols y)) col_subset ->
  (exists m,
     MLClassifierBase.generate_data_subset y row_subset 0 = Ok (VSparse m) /\
     fmt m = CSR /\ well_shaped m /\
     n_rows m = length row_subset /\ n_cols m = n_cols y /\
     rows m = map (fun i => row y (Z.to_nat i)) row_subset) /\
  (exists m,
     MLClassifierBase.generate_data_subset y col_subset 1 = Ok (VSparse m) /\
     fmt m = CSC /\ well_shaped m /\
     n_rows m = n_rows y /\ n_cols m = length col_subset /\
     forall k j, col_subset !! k = Some j ->
       column m k = column y (Z.to_nat j)).
Proof.
  intros Hy Hrows Hcols. split.
  - eexists. unfold MLClassifierBase.generate_data_subset.
    rewrite bool_decide_eq_false_2 by done.
    rewrite bool_decide_eq_true_2 by done.
    rewrite (getitem_rows_in_range (tocsr y)) by exact Hrows.
    simpl. repeat split.
    + unfold well_shaped. simpl. apply Forall_forall. intros r Hr.
      apply list_elem_of_In, in_map_iff in Hr as (i & <- & Hi).
      rewrite Forall_forall in Hrows.
      apply list_elem_of_In, Hrows in Hi.
      apply (row_length y); [exact Hy | lia].
    + unfold n_rows. simpl. apply length_map.
  - eexists. unfold MLClassifierBase.generate_data_subset.
    rewrite bool_decide_eq_true_2 by done.
    rewrite (getitem_cols_in_range (tocsc y)) by exact Hcols.
    simpl. repeat split.
    + unfold well_shaped. simpl. apply Forall_forall. intros r Hr.
      apply list_elem_of_In, in_map_iff in Hr as (r0 & <- & _).
      apply length_map.
    + unfold n_rows. simpl. apply length_map.
    + intros k j Hk. unfold column. simpl. rewrite map_map.
      apply map_ext. intros r.
      by apply (nth_map_lookup (fun j => nth (Z.to_nat j) r 0)).
Qed.

Lemma generate_data_subset_rows_and_columns_witness :
  let y := SpMatrix COO 2 [[1; 0]; [0; 1]; [1; 1]] in
  well_shaped y /\
  Forall (fun i => 0 <= i < Z.of_nat (n_rows y)) [2; 0] /\
  Forall (fun j => 0 <= j < Z.of_nat (n_cols y)) [1] /\
  (exists m,
     MLClassifierBase.generate_data_subset y [2; 0] 0 = Ok (VSparse m) /\
     fmt m = CSR /\ well_shaped m /\
     n_rows m = 2%nat /\ n_cols m = 2%nat /\
     rows m = [[1; 1]; [1; 0]]) /\
  (exists m,
     MLClassifierBase.generate_data_subset y [1] 1 = Ok (VSparse m) /\
     fmt m = CSC /\ well_shaped m /\
     n_rows m = 3%nat /\ n_cols m = 1%nat /\
     forall k j, [1] !! k = Some j -> column m k = column y (Z.to_nat j)).
Proof.
  intros y.
  assert (Hy : well_shaped y) by (repeat constructor).
  assert (Hr : Forall (fun i => 0 <= i < Z.of_nat (n_rows y)) [2; 0])
    by (repeat constructor; simpl; lia).
  assert (Hc : Forall (fun j => 0 <= j < Z.of_nat (n_cols y)) [1])
    by (repeat constructor; simpl; lia).
  split; [exact Hy|]. split; [exact Hr|]. split; [exact Hc|].
  exact (generate_data_subset_rows_and_columns y [2; 0] [1] Hy Hr Hc).
Defined.

(** C5. Any [axis] other than 0 and 1 makes [generate_data_subset] return
    [None], whatever the matrix and the subset. *)
Theorem generate_data_subset_other_axis_none
    (y : spmatrix) (subset : list Z) (axis : Z) :
  axis <> 0 -> axis <> 1 ->
  MLClassifierBase.generate_data_subset y subset axis = Ok VNone.
Proof.
  intros H0 H1. unfold MLClassifierBase.generate_data_subset.
  by rewrite !bool_decide_eq_false_2.
Qed.

Lemma generate_data_subset_other_axis_none_witness :
  2 <> 0 /\ 2 <> 1 /\
  MLClassifierBase.generate_data_subset
    (SpMatrix CSR 2 [[1; 0]; [0; 1]]) [5; -7] 2 = Ok VNone.
Proof.
  assert (H0 : 2 <> 0) by discriminate.
  assert (H1 : 2 <> 1) by discriminate.
  split; [exact H0|]. split; [exact H1|].
  exact (generate_data_subset_other_axis_none _ _ 2 H0 H1).
Defined.

(** C8. On a matrix with one column, [ensure_1d] returns one scalar per
    row of [y]: the only entry of that row. *)
Theorem ensure_1d_single_column (y : spmatrix) :
  well_shaped y -> n_cols y = 1%nat ->
  exists l,
    MLClassifierBase.ensure_1d y = Ok l /\
    length l = n_rows y /\
    forall i, (i < n_rows y)%nat -> row y i = [nth i l 0].
Proof.
  intros Hy H1. exists (map (fun r => nth 0 r 0) (rows y)). split; [|split].
  - unfold MLClassifierBase.ensure_1d, todense. apply rmap_ok.
    eapply Forall_impl; [exact Hy|]. intros r Hr. simpl in Hr.
    rewrite H1 in Hr. by rewrite (single_entry_row r Hr) at 1.
  - apply length_map.
  - intros i Hi.
    change 0 with ((fun r => nth 0 r 0) []) at 2.
    rewrite map_nth. apply single_entry_row.
    rewrite <- H1. by apply row_length.
Qed.

Lemma ensure_1d_single_column_witness :
  let y := SpMatrix CSC 1 [[1]; [0]; [1]] in
  well_shaped y /\ n_cols y = 1%nat /\
  exists l,
    MLClassifierBase.ensure_1d y = Ok l /\
    length l = 3%nat /\
    forall i, (i < 3)%nat -> row y i = [nth i l 0].
Proof.
  intros y.
  assert (Hy : well_shaped y) by (repeat constructor).
  split; [exact Hy|]. split; [reflexivity|].
  exact (ensure_1d_single_column y Hy eq_refl).
Defined.

Example ensure_1d_example :
  MLClassifierBase.ensure_1d (SpMatrix CSC 1 [[1]; [0]; [1]]) = Ok [1; 0; 1].
Proof. reflexivity. Qed.

(** On a matrix with no column there is no entry [(0, 0)] to read. *)
Example ensure_1d_no_column :
  MLClassifierBase.ensure_1d (SpMatrix CSR 0 [[]; []]) = Raise IndexError.
Proof. reflexivity. Qed.

Example generate_data_subset_out_of_range :
  MLClassifierBase.generate_data_subset
    (SpMatrix CSR 2 [[1; 0]; [0; 1]; [1; 1]]) [3] 0 = Raise IndexError.
Proof. reflexivity. Qed.

(** ** The abstract methods *)

(** C6. On the base class [fit] and [predict] raise [NotImplementedError],
    whatever the receiver and the arguments, and leave the receiver as it
    was. *)
Theorem base_fit_predict_not_implemented
    (self : instance) (X : features) (y : spmatrix) :
  MLClassifierBase.fit X y self =
    (Raise (NotImplementedError "MLClassifierBase::fit()"), self) /\
  MLClassifierBase.predict X self =
    (Raise (NotImplementedError "MLClassifierBase::predict()"), self).
Proof. split; reflexivity. Qed.

(** ** Parameter introspection *)

(** C7. [get_params(deep=False)] on an instance built with inner estimator
    [c] and flag [r] returns the mapping with the two entries
    [classifier -> c] and [require_dense -> r], and no other entry. *)
Theorem get_params_shallow_exact (c r : value) :
  exists out,
    MLClassifierBase.get_params false (MLClassifierBase.__init__ c r) =
      (Ok out, MLClassifierBase.__init__ c r) /\
    out = {[ "classifier" := c; "require_dense" := r ]} /\
    out !! "classifier" = Some c /\
    out !! "require_dense" = Some r /\
    size out = 2%nat /\
    forall name, name <> "classifier" -> name <> "require_dense" ->
      out !! name = None.
Proof.
  exists (<["require_dense" := r]> (<["classifier" := c]> ∅)).
  split; [reflexivity|]. split; [|split; [|split; [|split]]].
  - apply insert_insert_ne. done.
  - reflexivity.
  - reflexivity.
  - reflexivity.
  - intros name Hc Hr.
    rewrite lookup_insert_ne by done. rewrite lookup_insert_ne by done.
    apply lookup_empty.
Qed.

(** C4. With [deep=True] and an inner estimator that has [get_params], the
    body reads the name [value], which nothing binds: the call raises
    [NameError] and returns no mapping. *)
Theorem get_params_deep_raises_name_error
    (ps : list (string * value)) (r : value) :
  MLClassifierBase.get_params true
      (MLClassifierBase.__init__ (VEstimator (Some ps)) r) =
    (Raise (NameError "value"),
     MLClassifierBase.__init__ (VEstimator (Some ps)) r).
Proof. reflexivity. Qed.

(** Without the method on the inner estimator, [deep] changes nothing. *)
Lemma get_params_deep_without_introspection (r : value) :
  MLClassifierBase.get_params true (MLClassifierBase.__init__ VNone r) =
  MLClassifierBase.get_params false (MLClassifierBase.__init__ VNone r).
Proof. reflexivity. Qed.

(** C2. [set_params] returns the receiver unchanged when it is given no
    parameter; given at least one, it reads [self.setattr], which the
    instance does not have: the call raises [AttributeError] and assigns
    nothing, so that [require_dense] is still [False] after
    [set_params(require_dense=True)]. *)
Theorem set_params_with_parameters_raises
    (c r : value) (k : string) (v : value) (parameters : gmap string value) :
  let self := MLClassifierBase.__init__ c r in
  MLClassifierBase.set_params ∅ self = (Ok Self, self) /\
  MLClassifierBase.set_params (<[k := v]> parameters) self =
    (Raise (AttributeError "setattr"), self) /\
  fst (MLClassifierBase.get_params true
         (snd (MLClassifierBase.set_params {[ "require_dense" := VBool true ]}
                 (MLClassifierBase.__init__ VNone (VBool false))))) =
    Ok {[ "classifier" := VNone; "require_dense" := VBool false ]}.
Proof.
  intros self. split; [reflexivity|]. split.
  - apply set_params_no_setattr; [apply insert_non_empty | reflexivity].
  - rewrite set_params_state. vm_compute. reflexivity.
Qed.

(** ** The repeat classifier *)

(** C10. The constructor drops its argument: whatever [value_to_repeat] is
    given, the new instance holds exactly the inherited defaults
    [classifier = None] and [require_dense = False], has no stored row, and
    therefore cannot predict for any sample. *)
Theorem RepeatClassifier_init_ignores_argument (v : value) :
  let self := RepeatClassifier.__init__ v in
  self = RepeatClassifier.__init__ VNone /\
  attrs self = {[ "classifier" := VNone; "require_dense" := VBool false ]} /\
  attrs self !! "value_to_repeat" = None /\
  forall (x : list Z) (xs : list (list Z)),
    RepeatClassifier.predict (XDense (x :: xs)) self =
      (Raise (AttributeError "value_to_repeat"), self).
Proof.
  intros self. split; [reflexivity|]. split; [|split].
  - apply insert_insert_ne. done.
  - reflexivity.
  - intros x xs. by rewrite predict_untrained.
Qed.

(** C1. [fit] reads [y.tocsr] without calling it and indexes the method
    object: the call raises [TypeError] before anything is stored, and a
    [predict] that follows on one sample or more raises [AttributeError],
    where a sequence of copies of row 0 of [y] was expected. *)
Theorem RepeatClassifier_fit_then_predict_raises
    (v : value) (X : features) (y : spmatrix)
    (x : list Z) (xs : list (list Z)) :
  let self := RepeatClassifier.__init__ v in
  RepeatClassifier.fit X y self =
    (Raise (TypeError "object has no attribute '__getitem__'"), self) /\
  RepeatClassifier.predict (XDense (x :: xs))
      (snd (RepeatClassifier.fit X y self)) =
    (Raise (AttributeError "value_to_repeat"), self).
Proof.
  intros self. split; [apply fit_raises|].
  rewrite fit_raises. by rewrite predict_untrained.
Qed.

(** The scenario of the documentation: three label rows, four samples. *)
Example RepeatClassifier_scenario :
  let y := SpMatrix CSR 2 [[1; 0]; [0; 1]; [1; 1]] in
  let X := XDense [[0]; [0]; [0]] in
  let X2 := XDense [[5]; [6]; [7]; [8]] in
  let self := RepeatClassifier.__init__ VNone in
  fst (RepeatClassifier.fit X y self) =
    Raise (TypeError "object has no attribute '__getitem__'") /\
  fst (RepeatClassifier.predict X2 (snd (RepeatClassifier.fit X y self))) =
    Raise (AttributeError "value_to_repeat").
Proof. split; reflexivity. Qed.

(** No sequence of calls brings a [RepeatClassifier] to hold a stored
    row, since [fit] raises before the assignment: afterwards [predict]
    still raises as soon as there is one sample, and otherwise returns the
    empty sequence.  It never returns a row, copied or shared. *)
Theorem RepeatClassifier_never_returns_a_row
    (v : value) (cs : list call) (X : features) :
  let self := run_calls (RepeatClassifier.__init__ v) cs in
  attrs self !! "value_to_repeat" = None /\
  RepeatClassifier.predict X self =
    (match X with
     | XDense [] => Ok (VArray [])
     | XDense (_ :: _) => Raise (AttributeError "value_to_repeat")
     | XSparse _ => Raise (TypeError "sparse matrix length is ambiguous")
     end, self).
Proof.
  intros self. unfold self. rewrite run_calls_state.
  split; [reflexivity|]. by apply predict_untrained.
Qed.

(** * Further properties of the helpers and of the methods *)

(** ** Indices, in and out of range *)

Lemma check_index_valid (n : nat) (i : Z) :
  - Z.of_nat n <= i < Z.of_nat n ->
  check_index n i = Ok (Z.to_nat (i mod Z.of_nat n)).
Proof.
  intros Hi. unfold check_index.
  destruct (decide (0 <= i)) as [Hpos|Hneg].
  - rewrite bool_decide_eq_true_2 by lia.
    by rewrite Z.mod_small by lia.
  - rewrite bool_decide_eq_false_2 by lia.
    rewrite bool_decide_eq_true_2 by lia.
    rewrite <- (Z.mod_small (i + Z.of_nat n) (Z.of_nat n)) by lia.
    replace (i + Z.of_nat n) with (i + 1 * Z.of_nat n) by lia.
    by rewrite Z_mod_plus_full.
Qed.

Lemma check_index_invalid (n : nat) (i : Z) :
  i < - Z.of_nat n \/ Z.of_nat n <= i ->
  check_index n i = Raise IndexError.
Proof.
  intros Hi. unfold check_index.
  rewrite bool_decide_eq_false_2 by lia.
  rewrite bool_decide_eq_false_2 by lia. reflexivity.
Qed.

Lemma check_index_raises (n : nat) (i : Z) (e : exn) :
  check_index n i = Raise e -> e = IndexError.
Proof.
  unfold check_index. repeat case_bool_decide; congruence.
Qed.

(** A comprehension raises as soon as one element does, if the body can
    raise one exception only. *)
Lemma rmap_raises {A B : Type} (f : A -> result B) (l : list A) (x : A)
    (e : exn) :
  (forall y e', f y = Raise e' -> e' = e) ->
  x ∈ l -> f x = Raise e -> rmap f l = Raise e.
Proof.
  intros Honly Hin Hx. induction l as [|a l IH]; [by apply not_elem_of_nil in Hin|].
  simpl. destruct (f a) as [b|e'] eqn:Ha; simpl.
  - apply elem_of_cons in Hin as [->|Hin]; [congruence|].
    by rewrite IH.
  - by rewrite (Honly a e' Ha).
Qed.

Lemma lookup_nth {A : Type} (l : list A) (k : nat) (d : A) :
  (k < length l)%nat -> l !! k = Some (nth k l d).
Proof.
  intros Hk. destruct (nth_lookup_or_length l k d) as [H|H]; [exact H|lia].
Qed.

Lemma map_nth_seq {A : Type} (l : list A) (d : A) :
  map (fun k => nth k l d) (seq 0 (length l)) = l.
Proof.
  induction l as [|a l IH]; [reflexivity|].
  simpl length. simpl seq. rewrite <- seq_shift. simpl.
  rewrite map_map. simpl. by rewrite IH.
Qed.

Lemma rmap_getitem_0_0 (rs : list (list Z)) :
  Forall (fun r => (1 <= length r)%nat) rs ->
  rmap getitem_0_0 rs = Ok (map (fun r => nth 0 r 0) rs).
Proof.
  intros H. apply rmap_ok. eapply Forall_impl; [exact H|].
  intros [|x r] Hr; simpl in *; [lia|reflexivity].
Qed.

(** ** [generate_data_subset], beyond indices counted from the start *)

(** X1. An index outside [-n, n) for the axis it addresses makes the call raise
    [IndexError], wherever it stands in the subset. *)
Theorem generate_data_subset_index_error
    (y : spmatrix) (row_subset col_subset : list Z) (i j : Z) :
  i ∈ row_subset ->
  i < - Z.of_nat (n_rows y) \/ Z.of_nat (n_rows y) <= i ->
  j ∈ col_subset ->
  j < - Z.of_nat (n_cols y) \/ Z.of_nat (n_cols y) <= j ->
  MLClassifierBase.generate_data_subset y row_subset 0 = Raise IndexError /\
  MLClassifierBase.generate_data_subset y col_subset 1 = Raise IndexError.
Proof.
  intros Hi Hiout Hj Hjout.
  unfold MLClassifierBase.generate_data_subset. split.
  - rewrite bool_decide_eq_false_2 by done.
    rewrite bool_decide_eq_true_2 by done.
    unfold getitem_rows.
    rewrite (rmap_raises _ row_subset i IndexError); [reflexivity | | exact Hi |].
    + intros k e. apply check_index_raises.
    + by apply check_index_invalid.
  - rewrite bool_decide_eq_true_2 by done.
    unfold getitem_cols.
    rewrite (rmap_raises _ col_subset j IndexError); [reflexivity | | exact Hj |].
    + intros k e. apply check_index_raises.
    + by apply check_index_invalid.
Qed.

Lemma generate_data_subset_index_error_witness :
  let y := SpMatrix CSR 2 [[1; 0]; [0; 1]; [1; 1]] in
  MLClassifierBase.generate_data_subset y [0; 3; 1] 0 = Raise IndexError /\
  MLClassifierBase.generate_data_subset y [-3] 1 = Raise IndexError.
Proof.
  intros y.
  apply (generate_data_subset_index_error y [0; 3; 1] [-3] 3 (-3)).
  - apply list_elem_of_further, list_elem_of_here.
  - right. unfold y, n_rows. simpl. lia.
  - apply list_elem_of_here.
  - left. unfold y. simpl. lia.
Defined.

(** X2. Indices may count from the end: with every index in [-n, n), the result
    holds rows (axis 0) or columns (axis 1) [i mod n] of [y], in the order
    of the subset. *)
Theorem generate_data_subset_negative_indices
    (y : spmatrix) (row_subset col_subset : list Z) :
  Forall (fun i => - Z.of_nat (n_rows y) <= i < Z.of_nat (n_rows y))
    row_subset ->
  Forall (fun j => - Z.of_nat (n_cols y) <= j < Z.of_nat (n_cols y))
    col_subset ->
  (exists m,
     MLClassifierBase.generate_data_subset y row_subset 0 = Ok (VSparse m) /\
     n_cols m = n_cols y /\
     rows m =
       map (fun i => row y (Z.to_nat (i mod Z.of_nat (n_rows y)))) row_subset) /\
  (exists m,
     MLClassifierBase.generate_data_subset y col_subset 1 = Ok (VSparse m) /\
     n_rows m = n_rows y /\ n_cols m = length col_subset /\
     forall k j, col_subset !! k = Some j ->
       column m k = column y (Z.to_nat (j mod Z.of_nat (n_cols y)))).
Proof.
  intros Hrows Hcols. split.
  - eexists. unfold MLClassifierBase.generate_data_subset.
    rewrite bool_decide_eq_false_2 by done.
    rewrite bool_decide_eq_true_2 by done.
    unfold getitem_rows.
    rewrite (rmap_ok _ (fun i => Z.to_nat (i mod Z.of_nat (n_rows y)))).
    + simpl. repeat split. by rewrite map_map.
    + eapply Forall_impl; [exact Hrows|]. intros i Hi.
      by apply check_index_valid.
  - eexists. unfold MLClassifierBase.generate_data_subset.
    rewrite bool_decide_eq_true_2 by done.
    unfold getitem_cols.
    rewrite (rmap_ok _ (fun j => Z.to_nat (j mod Z.of_nat (n_cols y)))).
    + simpl. repeat split.
      * unfold n_rows. simpl. apply length_map.
      * apply length_map.
      * intros k j Hk. unfold column. simpl. rewrite map_map.
        apply map_ext. intros r. rewrite map_map.
        by apply (nth_map_lookup
                    (fun j => nth (Z.to_nat (j mod Z.of_nat (n_cols y))) r 0)).
    + eapply Forall_impl; [exact Hcols|]. intros j Hj.
      by apply check_index_valid.
Qed.

Lemma generate_data_subset_negative_indices_witness :
  let y := SpMatrix CSR 2 [[1; 0]; [0; 1]; [1; 1]] in
  Forall (fun i => - Z.of_nat (n_rows y) <= i < Z.of_nat (n_rows y)) [-1; 0] /\
  Forall (fun j => - Z.of_nat (n_cols y) <= j < Z.of_nat (n_cols y)) [-2] /\
  (exists m,
     MLClassifierBase.generate_data_subset y [-1; 0] 0 = Ok (VSparse m) /\
     n_cols m = 2%nat /\
     rows m = [[1; 1]; [1; 0]]) /\
  (exists m,
     MLClassifierBase.generate_data_subset y [-2] 1 = Ok (VSparse m) /\
     n_rows m = 3%nat /\ n_cols m = 1%nat /\
     forall k j, [-2] !! k = Some j ->
       column m k = column y (Z.to_nat (j mod 2))).
Proof.
  intros y.
  assert (Hr : Forall (fun i => - Z.of_nat (n_rows y) <= i < Z.of_nat (n_rows y))
                 [-1; 0])
    by (repeat (apply Forall_cons_2; [unfold y, n_rows; simpl; lia|]);
        apply Forall_nil_2).
  assert (Hc : Forall (fun j => - Z.of_nat (n_cols y) <= j < Z.of_nat (n_cols y))
                 [-2])
    by (repeat (apply Forall_cons_2; [unfold y; simpl; lia|]);
        apply Forall_nil_2).
  split; [exact Hr|]. split; [exact Hc|].
  exact (generate_data_subset_negative_indices y [-1; 0] [-2] Hr Hc).
Defined.

(** ** Subsetting twice *)

Lemma generate_data_subset_rows_eq (y : spmatrix) (subset : list Z) :
  Forall (fun i => 0 <= i < Z.of_nat (n_rows y)) subset ->
  MLClassifierBase.generate_data_subset y subset 0 =
    Ok (VSparse {| fmt := CSR; n_cols := n_cols y;
                   rows := map (fun i => row y (Z.to_nat i)) subset |}).
Proof.
  intros H. unfold MLClassifierBase.generate_data_subset.
  rewrite bool_decide_eq_false_2 by done.
  rewrite bool_decide_eq_true_2 by done.
  by rewrite (getitem_rows_in_range (tocsr y)) by exact H.
Qed.

Lemma generate_data_subset_cols_eq (y : spmatrix) (subset : list Z) :
  Forall (fun j => 0 <= j < Z.of_nat (n_cols y)) subset ->
  MLClassifierBase.generate_data_subset y subset 1 =
    Ok (VSparse {| fmt := CSC; n_cols := length subset;
                   rows := map (fun r => map (fun j => nth (Z.to_nat j) r 0) subset)
                               (rows y) |}).
Proof.
  intros H. unfold MLClassifierBase.generate_data_subset.
  rewrite bool_decide_eq_true_2 by done.
  by rewrite (getitem_cols_in_range (tocsc y)) by exact H.
Qed.

Lemma nth_map_in_range {A B : Type} (f : A -> B) (l : list A) (k : nat)
    (d : A) (d' : B) :
  (k < length l)%nat -> nth k (map f l) d' = f (nth k l d).
Proof. intros Hk. apply nth_map_lookup. by apply lookup_nth. Qed.

Lemma Forall_nth_in_range (P : Z -> Prop) (l subset : list Z) :
  Forall P l ->
  Forall (fun t => 0 <= t < Z.of_nat (length l)) subset ->
  Forall P (map (fun t => nth (Z.to_nat t) l 0) subset).
Proof.
  intros Hl Hs. apply Forall_forall. intros x Hx.
  apply list_elem_of_In, in_map_iff in Hx as (t & <- & Ht).
  rewrite Forall_forall in Hs. apply list_elem_of_In, Hs in Ht.
  rewrite Forall_forall in Hl. apply Hl.
  apply list_elem_of_In, nth_In. lia.
Qed.

(** X3. Selecting rows and then columns gives the same entries as selecting the
    columns first and then the rows: entry [(p, q)] of either result is the
    entry of [y] at the [p]-th listed row and the [q]-th listed column.
    Only the storage format of the two results differs. *)
Theorem generate_data_subset_rows_columns_commute
    (y : spmatrix) (row_subset col_subset : list Z) :
  Forall (fun i => 0 <= i < Z.of_nat (n_rows y)) row_subset ->
  Forall (fun j => 0 <= j < Z.of_nat (n_cols y)) col_subset ->
  exists a b m1 m2,
    MLClassifierBase.generate_data_subset y row_subset 0 = Ok (VSparse a) /\
    MLClassifierBase.generate_data_subset a col_subset 1 = Ok (VSparse m1) /\
    MLClassifierBase.generate_data_subset y col_subset 1 = Ok (VSparse b) /\
    MLClassifierBase.generate_data_subset b row_subset 0 = Ok (VSparse m2) /\
    rows m1 = rows m2 /\ n_cols m1 = n_cols m2 /\
    fmt m1 = CSC /\ fmt m2 = CSR /\
    rows m1 =
      map (fun i => map (fun j => entry y (Z.to_nat i) (Z.to_nat j)) col_subset)
          row_subset.
Proof.
  intros Hr Hc.
  eexists _, _, _, _.
  split; [by apply generate_data_subset_rows_eq|].
  split; [by apply generate_data_subset_cols_eq|].
  split; [by apply generate_data_subset_cols_eq|].
  split.
  { apply generate_data_subset_rows_eq.
    unfold n_rows. simpl. by rewrite length_map. }
  simpl.
  assert (Hrows :
    map (fun i => row {| fmt := CSC; n_cols := length col_subset;
                         rows := map (fun r => map (fun j => nth (Z.to_nat j) r 0)
                                                   col_subset) (rows y) |}
                      (Z.to_nat i)) row_subset =
    map (fun i => map (fun j => entry y (Z.to_nat i) (Z.to_nat j)) col_subset)
        row_subset).
  { apply map_ext_in. intros i Hi.
    rewrite Forall_forall in Hr. apply list_elem_of_In, Hr in Hi.
    unfold row at 1. simpl.
    rewrite (nth_map_in_range _ (rows y) (Z.to_nat i) [])
      by (unfold n_rows in Hi; lia).
    reflexivity. }
  rewrite Hrows, map_map. repeat split; reflexivity.
Qed.

Lemma generate_data_subset_rows_columns_commute_witness :
  let y := SpMatrix CSR 2 [[1; 0]; [0; 1]; [1; 1]] in
  exists a b m1 m2,
    MLClassifierBase.generate_data_subset y [2; 0] 0 = Ok (VSparse a) /\
    MLClassifierBase.generate_data_subset a [1] 1 = Ok (VSparse m1) /\
    MLClassifierBase.generate_data_subset y [1] 1 = Ok (VSparse b) /\
    MLClassifierBase.generate_data_subset b [2; 0] 0 = Ok (VSparse m2) /\
    rows m1 = rows m2 /\ n_cols m1 = n_cols m2 /\
    fmt m1 = CSC /\ fmt m2 = CSR /\
    rows m1 = [[1]; [0]].
Proof.
  intros y.
  apply (generate_data_subset_rows_columns_commute y [2; 0] [1]).
  - repeat (apply Forall_cons_2; [unfold y, n_rows; simpl; lia|]).
    apply Forall_nil_2.
  - repeat (apply Forall_cons_2; [unfold y; simpl; lia|]).
    apply Forall_nil_2.
Defined.

(** X4. Subsetting a subset is subsetting by the composed indices: taking the
    rows (columns) [inner] of [y] and then the rows (columns) [outer] of
    the result is the same call as taking the rows (columns)
    [inner[t] for t in outer] of [y] at once. *)
Theorem generate_data_subset_compose
    (y : spmatrix) (inner outer : list Z) (axis : Z) :
  axis = 0 \/ axis = 1 ->
  Forall (fun i => 0 <= i <
            Z.of_nat (if bool_decide (axis = 0) then n_rows y else n_cols y))
    inner ->
  Forall (fun t => 0 <= t < Z.of_nat (length inner)) outer ->
  exists a,
    MLClassifierBase.generate_data_subset y inner axis = Ok (VSparse a) /\
    MLClassifierBase.generate_data_subset a outer axis =
    MLClassifierBase.generate_data_subset y
      (map (fun t => nth (Z.to_nat t) inner 0) outer) axis.
Proof.
  intros [-> | ->] Hin Hout; simpl in Hin.
  - eexists. split; [by apply generate_data_subset_rows_eq|].
    rewrite generate_data_subset_rows_eq
      by (unfold n_rows; simpl; by rewrite length_map).
    rewrite generate_data_subset_rows_eq by (by apply Forall_nth_in_range).
    simpl. do 3 f_equal. rewrite map_map.
    apply map_ext_in. intros t Ht.
    rewrite Forall_forall in Hout. apply list_elem_of_In, Hout in Ht.
    unfold row at 1. simpl.
    by rewrite (nth_map_in_range _ inner (Z.to_nat t) 0) by lia.
  - eexists. split; [by apply generate_data_subset_cols_eq|].
    rewrite generate_data_subset_cols_eq by (simpl; exact Hout).
    rewrite generate_data_subset_cols_eq by (by apply Forall_nth_in_range).
    simpl. do 2 f_equal. f_equal.
    + by rewrite length_map.
    + rewrite map_map. apply map_ext. intros r. rewrite map_map.
      apply map_ext_in. intros t Ht.
      rewrite Forall_forall in Hout. apply list_elem_of_In, Hout in Ht.
      by rewrite (nth_map_in_range _ inner (Z.to_nat t) 0) by lia.
Qed.

Lemma generate_data_subset_compose_witness :
  let y := SpMatrix CSR 2 [[1; 0]; [0; 1]; [1; 1]] in
  exists a,
    MLClassifierBase.generate_data_subset y [2; 0; 1] 0 = Ok (VSparse a) /\
    MLClassifierBase.generate_data_subset a [1; 1; 2] 0 =
    MLClassifierBase.generate_data_subset y
      (map (fun t => nth (Z.to_nat t) [2; 0; 1] 0) [1; 1; 2]) 0.
Proof.
  intros y.
  apply (generate_data_subset_compose y [2; 0; 1] [1; 1; 2] 0).
  - left. reflexivity.
  - repeat (apply Forall_cons_2; [unfold y, n_rows; simpl; lia|]).
    apply Forall_nil_2.
  - repeat (apply Forall_cons_2; [simpl; lia|]).
    apply Forall_nil_2.
Defined.

Lemma Forall_range (n : nat) :
  Forall (fun i => 0 <= i < Z.of_nat n) (map Z.of_nat (seq 0 n)).
Proof.
  apply Forall_forall. intros i Hi.
  apply list_elem_of_In, in_map_iff in Hi as (k & <- & Hk).
  apply in_seq in Hk. lia.
Qed.

(** X5. Subsetting by all the indices of an axis, in order, gives [y] back,
    converted to the format of that axis. *)
Theorem generate_data_subset_all_indices (y : spmatrix) :
  well_shaped y ->
  MLClassifierBase.generate_data_subset y
      (map Z.of_nat (seq 0 (n_rows y))) 0 = Ok (VSparse (tocsr y)) /\
  MLClassifierBase.generate_data_subset y
      (map Z.of_nat (seq 0 (n_cols y))) 1 = Ok (VSparse (tocsc y)).
Proof.
  intros Hy. split.
  - rewrite generate_data_subset_rows_eq by apply Forall_range.
    unfold tocsr. do 3 f_equal.
    rewrite map_map. erewrite map_ext; [apply map_nth_seq|].
    intros k. simpl. by rewrite Nat2Z.id.
  - rewrite generate_data_subset_cols_eq by apply Forall_range.
    unfold tocsc. do 2 f_equal. f_equal.
    + by rewrite length_map, length_seq.
    + rewrite <- (map_id (rows y)) at 2.
      apply map_ext_in. intros r Hr.
      unfold well_shaped in Hy. rewrite Forall_forall in Hy.
      apply list_elem_of_In, Hy in Hr. rewrite <- Hr.
      rewrite map_map. erewrite map_ext; [apply map_nth_seq|].
      intros k. simpl. by rewrite Nat2Z.id.
Qed.

Lemma generate_data_subset_all_indices_witness :
  let y := SpMatrix COO 2 [[1; 0]; [0; 1]; [1; 1]] in
  MLClassifierBase.generate_data_subset y [0; 1; 2] 0 = Ok (VSparse (tocsr y)) /\
  MLClassifierBase.generate_data_subset y [0; 1] 1 = Ok (VSparse (tocsc y)).
Proof.
  intros y. apply (generate_data_subset_all_indices y).
  repeat (apply Forall_cons_2; [reflexivity|]). apply Forall_nil_2.
Defined.

(** ** [ensure_1d] on matrices of any width *)

(** X6. Whatever the number of columns, as long as there is one, [ensure_1d]
    returns column 0 of [y]: the other columns are dropped without
    notice. *)
Theorem ensure_1d_first_column (y : spmatrix) :
  well_shaped y -> (1 <= n_cols y)%nat ->
  MLClassifierBase.ensure_1d y = Ok (column y 0).
Proof.
  intros Hy Hc. unfold MLClassifierBase.ensure_1d, todense, column.
  apply rmap_getitem_0_0.
  eapply Forall_impl; [exact Hy|]. intros r Hr. simpl in Hr. lia.
Qed.

Lemma ensure_1d_first_column_witness :
  MLClassifierBase.ensure_1d (SpMatrix CSR 2 [[1; 0]; [0; 1]; [1; 1]]) =
    Ok [1; 0; 1].
Proof.
  apply (ensure_1d_first_column (SpMatrix CSR 2 [[1; 0]; [0; 1]; [1; 1]])).
  - repeat (apply Forall_cons_2; [reflexivity|]). apply Forall_nil_2.
  - simpl. lia.
Defined.

(** X7. On a matrix without columns [ensure_1d] raises [IndexError] at the
    first row; without rows either, it returns the empty list. *)
Theorem ensure_1d_no_columns (y : spmatrix) :
  well_shaped y -> n_cols y = 0%nat ->
  MLClassifierBase.ensure_1d y =
    if bool_decide (n_rows y = 0%nat) then Ok [] else Raise IndexError.
Proof.
  unfold well_shaped, n_rows, MLClassifierBase.ensure_1d, todense.
  intros Hy Hc. destruct (rows y) as [|r rs]; [reflexivity|].
  apply Forall_cons in Hy as [Hr _]. rewrite Hc in Hr.
  destruct r; [reflexivity | discriminate].
Qed.

Lemma ensure_1d_no_columns_witness :
  MLClassifierBase.ensure_1d (SpMatrix CSR 0 [[]; []]) = Raise IndexError /\
  MLClassifierBase.ensure_1d (SpMatrix CSR 0 []) = Ok [].
Proof.
  split.
  - apply (ensure_1d_no_columns (SpMatrix CSR 0 [[]; []])).
    + repeat (apply Forall_cons_2; [reflexivity|]). apply Forall_nil_2.
    + reflexivity.
  - apply (ensure_1d_no_columns (SpMatrix CSR 0 [])).
    + apply Forall_nil_2.
    + reflexivity.
Defined.

(** X8. Selecting the single label [j] and flattening gives column [j] of [y]
    as a list of scalars, one per sample. *)
Theorem ensure_1d_of_one_label (y : spmatrix) (j : Z) :
  0 <= j < Z.of_nat (n_cols y) ->
  exists m,
    MLClassifierBase.generate_data_subset y [j] 1 = Ok (VSparse m) /\
    MLClassifierBase.ensure_1d m = Ok (column y (Z.to_nat j)) /\
    length (column y (Z.to_nat j)) = n_rows y.
Proof.
  intros Hj. eexists. split; [|split].
  - apply generate_data_subset_cols_eq.
    apply Forall_cons_2; [exact Hj | apply Forall_nil_2].
  - unfold MLClassifierBase.ensure_1d, todense, column. simpl.
    rewrite rmap_getitem_0_0.
    + by rewrite map_map.
    + apply Forall_forall. intros r Hr.
      apply list_elem_of_In, in_map_iff in Hr as (r0 & <- & _). simpl. lia.
  - unfold column, n_rows. apply length_map.
Qed.

Lemma ensure_1d_of_one_label_witness :
  let y := SpMatrix CSR 2 [[1; 0]; [0; 1]; [1; 1]] in
  exists m,
    MLClassifierBase.generate_data_subset y [1] 1 = Ok (VSparse m) /\
    MLClassifierBase.ensure_1d m = Ok [0; 1; 1] /\
    length (column y 1) = 3%nat.
Proof.
  intros y. apply (ensure_1d_of_one_label y 1). unfold y. simpl. lia.
Defined.

(** ** [predict] and [get_params] on instances that hold more *)

(** X9. On an instance that does hold a row under [value_to_repeat], however it
    got there, [predict] returns one element per sample, each equal to the
    stored row, and leaves the instance as it was. *)
Theorem predict_repeats_stored_row
    (self : instance) (v : value) (samples : list (list Z)) :
  attrs self !! "value_to_repeat" = Some v ->
  exists out,
    RepeatClassifier.predict (XDense samples) self = (Ok (VArray out), self) /\
    length out = length samples /\
    Forall (fun x => x = v) out.
Proof.
  intros Hv. exists (map (fun _ => v) (seq 0 (length samples))).
  split; [|split].
  - unfold RepeatClassifier.predict, bind at 1, lift. simpl py_len.
    cbv iota beta. unfold bind at 1.
    rewrite (comprehension_trained self v) by exact Hv. reflexivity.
  - by rewrite length_map, length_seq.
  - apply Forall_forall. intros x Hx.
    by apply list_elem_of_In, in_map_iff in Hx as (k & <- & _).
Qed.

Lemma predict_repeats_stored_row_witness :
  let self :=
    snd (setattr "value_to_repeat" (VArray [VInt 1; VInt 0])
           (RepeatClassifier.__init__ VNone)) in
  exists out,
    RepeatClassifier.predict (XDense [[5]; [6]; [7]; [8]]) self =
      (Ok (VArray out), self) /\
    length out = 4%nat /\
    Forall (fun x => x = VArray [VInt 1; VInt 0]) out.
Proof.
  intros self.
  exact (predict_repeats_stored_row self (VArray [VInt 1; VInt 0])
           [[5]; [6]; [7]; [8]] eq_refl).
Defined.

(** X10. [get_params] reports the two constructor parameters and nothing else
    on any instance, whatever further attributes it holds, as soon as
    [deep] is false or the inner estimator has no [get_params]. *)
Theorem get_params_reports_two_entries
    (self : instance) (c r : value) (deep : bool) :
  attrs self !! "classifier" = Some c ->
  attrs self !! "require_dense" = Some r ->
  deep = false \/ has_get_params c = false ->
  MLClassifierBase.get_params deep self =
    (Ok {[ "classifier" := c; "require_dense" := r ]}, self).
Proof.
  intros Hc Hr Hshallow.
  assert (Hout : <["require_dense" := r]> (<["classifier" := c]> ∅) =
                 ({[ "classifier" := c; "require_dense" := r ]}
                    : gmap string value))
    by (by apply insert_insert_ne).
  unfold MLClassifierBase.get_params, bind, getattr, ret.
  rewrite Hc, Hr.
  destruct deep; [|by rewrite Hout].
  destruct Hshallow as [?|Hno]; [done|].
  rewrite Hc, Hno. by rewrite Hout.
Qed.

Lemma get_params_reports_two_entries_witness :
  let self :=
    snd (setattr "value_to_repeat" (VArray [VInt 1; VInt 0])
           (RepeatClassifier.__init__ VNone)) in
  MLClassifierBase.get_params true self =
    (Ok {[ "classifier" := VNone; "require_dense" := VBool false ]}, self).
Proof.
  intros self.
  apply (get_params_reports_two_entries self VNone (VBool false) true).
  - reflexivity.
  - reflexivity.
  - right. reflexivity.
Defined.

(** ** Which rows of [predict] are one object *)

Lemma alloc_spec (h : gmap nat Store.obj) (o : Store.obj) :
  exists l, Store.alloc h o = (l, <[l := o]> h) /\ h !! l = None.
Proof.
  exists (fresh (dom h)). split; [reflexivity|].
  apply not_elem_of_dom, is_fresh.
Qed.

(** The comprehension, when every copy of the stored object is a new
    object [o']: as many new addresses as rounds, all holding [o'], and
    nothing that was in the store is touched. *)
Lemma copies_alloc (o o' : Store.obj) (r n : nat) (h : gmap nat Store.obj) :
  (forall h', h' !! r = Some o -> Store.np_copy h' r = Store.alloc h' o') ->
  h !! r = Some o ->
  exists cs h1,
    Store.copies h (Some r) n = Ok (cs, h1) /\
    length cs = n /\ h ⊆ h1 /\
    Forall (fun l => h1 !! l = Some o') cs.
Proof.
  intros Hcopy. revert h. induction n as [|n IH]; intros h Hr.
  { exists [], h. repeat split; [done | constructor]. }
  destruct (alloc_spec h o') as (l & Hal & Hl).
  assert (Hr1 : <[l := o']> h !! r = Some o).
  { rewrite lookup_insert_ne; [exact Hr | congruence]. }
  destruct (IH _ Hr1) as (cs & h2 & Hcs & Hlen & Hsub & Hall).
  exists (l :: cs), h2. split; [|split; [|split]].
  - simpl. rewrite (Hcopy h Hr), Hal, Hcs. reflexivity.
  - simpl. by rewrite Hlen.
  - etrans; [apply (insert_subseteq h l o' Hl) | exact Hsub].
  - constructor; [|exact Hall].
    apply (lookup_weaken (<[l := o']> h)); [apply lookup_insert_eq | exact Hsub].
Qed.


Lemma np_array_ndarray (data : list Z) (cs : list nat) (h : gmap nat Store.obj) :
  Forall (fun l => h !! l = Some (Store.ONdarray data)) cs ->
  exists out h2,
    Store.np_array h cs = (out, h2) /\
    length out = length cs /\ h ⊆ h2 /\ NoDup out /\
    Forall (fun l => h !! l = None /\ h2 !! l = Some (Store.ONdarray data)) out.
Proof.
  revert h. induction cs as [|c cs IH]; intros h Hall.
  { exists [], h. repeat split; [done | constructor | constructor]. }
  apply Forall_cons in Hall as [Hc Hall].
  destruct (alloc_spec h (Store.ONdarray data)) as (l & Hal & Hl).
  pose proof (insert_subseteq h l (Store.ONdarray data) Hl) as Hsub1.
  destruct (IH (<[l := Store.ONdarray data]> h)) as (out & h2 & Hout & Hlen & Hsub & Hnd & Hnew).
  { eapply Forall_impl; [exact Hall|]. intros l' Hl'. simpl in Hl'.
    by apply (lookup_weaken h). }
  exists (l :: out), h2. split; [|split; [|split; [|split]]].
  - cbn [Store.np_array]. rewrite Hc, Hal, Hout. reflexivity.
  - simpl. by rewrite Hlen.
  - by etrans.
  - constructor; [|exact Hnd].
    intros Hin. rewrite Forall_forall in Hnew.
    destruct (Hnew l Hin) as [Hnone _].
    by rewrite lookup_insert_eq in Hnone.
  - constructor.
    + split; [exact Hl|].
      apply (lookup_weaken (<[l := Store.ONdarray data]> h));
        [apply lookup_insert_eq | exact Hsub].
    + eapply Forall_impl; [exact Hnew|]. intros l' [Hnone Hsome].
      split; [|exact Hsome].
      apply lookup_insert_None in Hnone as [Hnone _]. exact Hnone.
Qed.

(** When the stored row is a numeric array, the rows returned are new and
    pairwise distinct objects, each holding the stored data: a write
    through one of them is seen through no other, nor through the stored
    row. *)
Lemma predict_ndarray_rows_independent
    (h : gmap nat Store.obj) (r : nat) (data : list Z)
    (samples : list (list Z)) :
  h !! r = Some (Store.ONdarray data) ->
  exists out h',
    Store.predict h (Some r) (XDense samples) = Ok (out, h') /\
    length out = length samples /\ NoDup out /\
    forall i j o, i <> j -> is_Some (out !! i) -> is_Some (out !! j) ->
      Store.read_row (Store.write_row h' out i o) out j =
        Some (Store.ONdarray data) /\
      Store.write_row h' out i o !! r = Some (Store.ONdarray data).
Proof.
  intros Hr.
  destruct (copies_alloc (Store.ONdarray data) (Store.ONdarray data) r
              (length samples) h) as (cs & h1 & Hcs & Hlen & Hsub1 & Hall);
    [|exact Hr|].
  { intros h0 H0. unfold Store.np_copy. by rewrite H0. }
  destruct (np_array_ndarray data cs h1 Hall)
    as (out & h2 & Hout & Hlen2 & Hsub2 & Hnd & Hnew).
  exists out, h2. split; [|split; [|split]].
  - unfold Store.predict. simpl. rewrite Hcs. simpl. by rewrite Hout.
  - congruence.
  - exact Hnd.
  - intros i j o Hij [li Hi] [lj Hj].
    unfold Store.read_row, Store.write_row. rewrite Hi, Hj.
    rewrite Forall_forall in Hnew.
    destruct (Hnew li (list_elem_of_lookup_2 _ _ _ Hi)) as [Hli _].
    destruct (Hnew lj (list_elem_of_lookup_2 _ _ _ Hj)) as [_ Hlj].
    split.
    + rewrite lookup_insert_ne; [exact Hlj|].
      intros ->. apply Hij. by apply (NoDup_lookup out i j lj).
    + rewrite lookup_insert_ne.
      * apply (lookup_weaken h1); [|exact Hsub2].
        by apply (lookup_weaken h).
      * intros ->. pose proof (lookup_weaken _ _ _ _ Hr Hsub1) as Hr1.
        congruence.
Qed.



(** Two samples, a stored sparse row [[1, 0]] at address 0: both rows of the
    result are address 0, and setting row 0 to [[1, 1]] in place changes
    what row 1 reads. *)
Example predict_two_samples_one_object :
  let h : gmap nat Store.obj :=
    {[ 0%nat := Store.OSparse (SpMatrix CSR 2 [[1; 0]]) ]} in
  match Store.predict h (Some 0%nat) (XDense [[5]; [6]]) with
  | Ok (out, h') =>
      out = [0%nat; 0%nat] /\
      Store.read_row h' out 1 = Some (Store.OSparse (SpMatrix CSR 2 [[1; 0]])) /\
      Store.read_row
        (Store.write_row h' out 0 (Store.OSparse (SpMatrix CSR 2 [[1; 1]])))
        out 1 = Some (Store.OSparse (SpMatrix CSR 2 [[1; 1]]))
  | Raise _ => False
  end.
Proof. vm_compute. repeat split. Qed.

(** The same call on a stored numeric array [[1, 0]]: two rows at two new
    addresses, and row 1 still reads [[1, 0]] after the write. *)
Example predict_two_samples_two_objects :
  let h : gmap nat Store.obj := {[ 0%nat := Store.ONdarray [1; 0] ]} in
  match Store.predict h (Some 0%nat) (XDense [[5]; [6]]) with
  | Ok (out, h') =>
      NoDup out /\ length out = 2%nat /\
      Store.read_row (Store.write_row h' out 0 (Store.ONdarray [1; 1])) out 1 =
        Some (Store.ONdarray [1; 0])
  | Raise _ => False
  end.
Proof.
  vm_compute. split; [|split; reflexivity].
  repeat constructor; intros H; repeat (apply elem_of_cons in H as [H|H]; [discriminate|]);
    by apply not_elem_of_nil in H.
Qed.

(** Without a stored row the two readings of [predict] agree: the same
    exception, or the empty sequence and an untouched store. *)
Lemma store_predict_untrained
    (h : gmap nat Store.obj) (X : features) (self : instance) :
  attrs self !! "value_to_repeat" = None ->
  match Store.predict h None X, fst (RepeatClassifier.predict X self) with
  | Ok (out, h'), Ok v => out = [] /\ v = VArray [] /\ h' = h
  | Raise e, Raise e' => e = e'
  | _, _ => False
  end.
Proof.
  intros Hnone. rewrite predict_untrained by exact Hnone.
  destruct X as [[|x xs]|m]; simpl; done.
Qed.

(** A class of the module passed as the inner estimator has [get_params]
    too, and meets the same unbound name. *)
Example get_params_deep_on_module_class :
  fst (MLClassifierBase.get_params true
         (MLClassifierBase.__init__ (VGlobal "RepeatClassifier") (VBool false))) =
    Raise (NameError "value").
Proof. reflexivity. Qed.
